(** * The Gnosis-Safe request page: payment routing, cancellation and
      address comparisons

    A shallow embedding of the decision logic of
    [packages/gnosis-safe/src/containers/RequestPage.tsx]: the [pay] and
    [cancel] closures of [RequestPage] and the address comparisons of the
    [Body] and [Actions] components.  Rendering is left out; every call the
    closures make to the payment SDK, the proxy artifacts, the Safe SDK and
    the browser ([alert]) is recorded, in evaluation order, in a trace. *)

From Stdlib Require Import ZArith String Ascii List Bool Lia DecimalString.
Import ListNotations.
Open Scope string_scope.

(** ** JavaScript primitives the component relies on *)
Module Js.

(** A thrown value.  The page only ever inspects one through
    [isCancelError]; a message and an optional numeric code are enough to
    tell errors apart. *)
Record Error := mkError { message : string; code : option Z }.

(** [!!s] on a string: the empty string is the only falsy one. *)
Definition truthy (s : string) : bool := negb (s =? "").

(** [!!x] on [string | null | undefined]. *)
Definition truthy_opt (x : option string) : bool :=
  match x with
  | Some s => truthy s
  | None => false
  end.

(** [!!n] on a number: [0] is the falsy one ([NaN] is no chain id). *)
Definition truthy_num (n : Z) : bool := negb (n =? 0)%Z.

Definition is_upper (c : ascii) : bool :=
  let n := nat_of_ascii c in (65 <=? n)%nat && (n <=? 90)%nat.

Definition lower_char (c : ascii) : ascii :=
  if is_upper c then ascii_of_nat (nat_of_ascii c + 32) else c.

(** [String.prototype.toLowerCase] on ASCII text, which is what a
    hexadecimal chain address is. *)
Fixpoint toLowerCase (s : string) : string :=
  match s with
  | EmptyString => EmptyString
  | String c rest => String (lower_char c) (toLowerCase rest)
  end.

(** [x?.toLowerCase()] *)
Definition toLowerCase_opt (x : option string) : option string :=
  option_map toLowerCase x.

(** [a === b] where either side may be [undefined]. *)
Definition strict_eq_opt (a b : option string) : bool :=
  match a, b with
  | Some x, Some y => x =? y
  | None, None => true
  | _, _ => false
  end.

(** [BigNumber.prototype.toString]: the decimal rendering. *)
Definition BigNumber_toString (z : Z) : string :=
  NilZero.string_of_int (Z.to_int z).

End Js.

(** ** Data handed to the page by the request provider and the Safe *)

Definition Address := string.

(** [RequestLogicTypes.ICurrency] *)
Module Currency.
Record ICurrency := mk
  { type : string;            (* "ERC20", "ETH", "BTC", "ISO4217" *)
    value : string;           (* token contract address for ERC20 *)
    network : option string }.
End Currency.

(** [request.raw]: only the currency information is read by the page; the
    remaining fields travel opaquely to the SDK. *)
Record IRequestData := mkRequestData
  { rawRequestId : string;
    expectedAmount : string;
    currencyInfo : Currency.ICurrency }.

Record IParsedRequest := mkParsedRequest
  { requestId : string;
    payee : string;
    payer : option string;
    paymentAddress : string;
    status : string;
    raw : IRequestData }.

Record SafeInfo := mkSafeInfo { safeAddress : Address }.

(** The Safe apps SDK handle; the page holds it as an optional value. *)
Inductive AppsSdk := appsSdkInstance.

(** ** Transactions *)

(** The [value] property is the number [0] for the token route and a string
    for the native route. *)
Inductive TxValue :=
| VNumber (n : Z)
| VString (s : string).

Record Tx := mkTx { to : Address; value : TxValue; data : string }.

(** ** External collaborators

    Imported from [@requestnetwork/payment-processor],
    [@requestnetwork/smart-contracts] and [request-shared].  The oracles are
    awaited remote reads and the artifact lookup throws on a network without a
    deployment, so these three may fail; [inl] is the thrown value. *)
Record Collaborators := mkCollaborators
  { hasSufficientFunds : IRequestData -> Address -> Js.Error + bool;
    hasErc20Approval : IRequestData -> Address -> Js.Error + bool;
    encodeApproveErc20 : IRequestData -> string;
    encodePayErc20Request : IRequestData -> string;
    encodePayEthProxyRequest : IRequestData -> string;
    erc20ProxyArtifact_getAddress : option string -> Js.Error + Address;
    ethereumProxyArtifact_getAddress : option string -> Js.Error + Address;
    getAmountToPay : IRequestData -> Z;
    cancelRequest : string -> string -> Z -> Js.Error + unit;
    isCancelError : Js.Error -> bool;
    update : Js.Error + unit }.

(** ** Effects *)

Inductive Event :=
| Alert (msg : string)
| Call_hasSufficientFunds (r : IRequestData) (a : Address)
| Call_hasErc20Approval (r : IRequestData) (a : Address)
| Call_encodeApproveErc20 (r : IRequestData)
| Call_encodePayErc20Request (r : IRequestData)
| Call_encodePayEthProxyRequest (r : IRequestData)
| Call_erc20Proxy_getAddress (n : option string)
| Call_ethereumProxy_getAddress (n : option string)
| Call_getAmountToPay (r : IRequestData)
| Call_sendTransactions (batch : list Tx)
| Call_cancelRequest (id account : string) (chainId : Z)
| Call_update.

(** How a statement list ends: it runs on, the enclosing function
    [return]s, or a value is thrown. *)
Inductive Completion (A : Type) :=
| Normal (a : A)
| Return
| Throw (e : Js.Error).
Arguments Normal {A} a.
Arguments Return {A}.
Arguments Throw {A} e.

(** The local array [txs] and the trace of external calls so far. *)
Record State := mkState { txs : list Tx; trace : list Event }.

Definition M (A : Type) : Type := State -> Completion A * State.

Definition ret {A} (a : A) : M A := fun s => (Normal a, s).

Definition bind {A B} (m : M A) (k : A -> M B) : M B :=
  fun s =>
    match m s with
    | (Normal a, s') => k a s'
    | (Return, s') => (Return, s')
    | (Throw e, s') => (Throw e, s')
    end.

Declare Scope js_scope.
Delimit Scope js_scope with js.
Notation "x <- m ;; k" := (bind m (fun x => k))
  (at level 61, m at next level, right associativity) : js_scope.
Notation "m ;; k" := (bind m (fun _ => k))
  (at level 61, right associativity) : js_scope.
Open Scope js_scope.

Definition return_ {A} : M A := fun s => (Return, s).
Definition throw {A} (e : Js.Error) : M A := fun s => (Throw e, s).

Definition emit (ev : Event) : M unit :=
  fun s => (Normal tt, {| txs := txs s; trace := trace s ++ [ev] |}).

(** A call that cannot fail. *)
Definition call {A} (ev : Event) (result : A) : M A := emit ev ;; ret result.

(** A call that may throw. *)
Definition call_fallible {A} (ev : Event) (result : Js.Error + A) : M A :=
  emit ev ;;
  match result with
  | inl e => throw e
  | inr a => ret a
  end.

Definition alert (msg : string) : M unit := emit (Alert msg).

(** [txs.push(tx)] *)
Definition push (tx : Tx) : M unit :=
  fun s => (Normal tt, {| txs := txs s ++ [tx]; trace := trace s |}).

Definition get_txs : M (list Tx) := fun s => (Normal (txs s), s).

(** [if (c) { body }] with no [else]. *)
Definition when (c : bool) (body : M unit) : M unit :=
  if c then body else ret tt.

(** [try { body } catch (e) { handler e }]: a [return] inside [body] is not
    caught. *)
Definition try_catch {A} (body : M A) (handler : Js.Error -> M A) : M A :=
  fun s =>
    match body s with
    | (Throw e, s') => handler e s'
    | other => other
    end.

(** The state a closure starts from: a fresh [txs] and an empty trace. *)
Definition initial : State := {| txs := []; trace := [] |}.

Definition run {A} (m : M A) : Completion A * State := m initial.

(** ** The [RequestPage] closures *)
Module RequestPage.

Section Closures.

Variable sdk : Collaborators.

(** [pay], lines 377-442.  [appsSdk?.sendTransactions(txs)] calls the Safe
    only when the handle is there. *)
Definition pay (request : option IParsedRequest) (safeInfo : option SafeInfo)
    (appsSdk : option AppsSdk) : M unit :=
  match request with
  | None => alert "Request not found" ;; return_
  | Some request =>
  match safeInfo with
  | None => alert "Safe Info not found" ;; return_
  | Some safeInfo =>
    let currency := currencyInfo (raw request) in
    when (Currency.type currency =? "ERC20")
      (funds <- call_fallible
                  (Call_hasSufficientFunds (raw request) (safeAddress safeInfo))
                  (hasSufficientFunds sdk (raw request) (safeAddress safeInfo)) ;;
       when (negb funds) (alert "Insufficient funds" ;; return_) ;;
       approved <- call_fallible
                     (Call_hasErc20Approval (raw request) (safeAddress safeInfo))
                     (hasErc20Approval sdk (raw request) (safeAddress safeInfo)) ;;
       when (negb approved)
         (payload <- call (Call_encodeApproveErc20 (raw request))
                          (encodeApproveErc20 sdk (raw request)) ;;
          push {| to := Currency.value currency;
                  value := VNumber 0;
                  data := payload |}) ;;
       proxy <- call_fallible
                  (Call_erc20Proxy_getAddress (Currency.network currency))
                  (erc20ProxyArtifact_getAddress sdk (Currency.network currency)) ;;
       payload <- call (Call_encodePayErc20Request (raw request))
                       (encodePayErc20Request sdk (raw request)) ;;
       push {| to := proxy; value := VNumber 0; data := payload |}) ;;
    when (Currency.type currency =? "ETH")
      (funds <- call_fallible
                  (Call_hasSufficientFunds (raw request) (safeAddress safeInfo))
                  (hasSufficientFunds sdk (raw request) (safeAddress safeInfo)) ;;
       when (negb funds) (alert "Insufficient funds" ;; return_) ;;
       proxy <- call_fallible
                  (Call_ethereumProxy_getAddress (Currency.network currency))
                  (ethereumProxyArtifact_getAddress sdk (Currency.network currency)) ;;
       amount <- call (Call_getAmountToPay (raw request))
                      (getAmountToPay sdk (raw request)) ;;
       payload <- call (Call_encodePayEthProxyRequest (raw request))
                       (encodePayEthProxyRequest sdk (raw request)) ;;
       push {| to := proxy;
               value := VString (Js.BigNumber_toString amount);
               data := payload |}) ;;
    when (Currency.type currency =? "BTC")
      (alert "not implemented" ;; return_) ;;
    when (Currency.type currency =? "ISO4217")
      (alert "not implemented" ;; return_) ;;
    match appsSdk with
    | Some _ => batch <- get_txs ;; emit (Call_sendTransactions batch)
    | None => ret tt
    end
  end
  end.

(** [cancel], lines 444-457. *)
Definition cancel (request : option IParsedRequest) (account : option string)
    (chainId : option Z) : M unit :=
  match request, account, chainId with
  | Some request, Some account, Some chainId =>
    if Js.truthy account && Js.truthy_num chainId then
      try_catch
        (call_fallible (Call_cancelRequest (requestId request) account chainId)
                       (cancelRequest sdk (requestId request) account chainId))
        (fun e => if negb (isCancelError sdk e) then ret tt else throw e) ;;
      call_fallible Call_update (update sdk)
    else throw (Js.mkError "cannot cancel because page is not ready" None)
  | _, _, _ => throw (Js.mkError "cannot cancel because page is not ready" None)
  end.

End Closures.

End RequestPage.

(** ** Address comparisons of the [Body] component, lines 103-116 and 171 *)
Module Body.

(** [request?.payee] *)
Definition payee_of (request : option IParsedRequest) : option string :=
  option_map payee request.

(** [request?.payer] *)
Definition payer_of (request : option IParsedRequest) : option string :=
  match request with
  | Some r => payer r
  | None => None
  end.

(** [!!x && x.toLowerCase() === y]: only the left operand is lower-cased. *)
Definition matches_lowercased (x y : option string) : bool :=
  Js.truthy_opt x && Js.strict_eq_opt (Js.toLowerCase_opt x) y.

Definition isAccountPayee (account : option string)
    (request : option IParsedRequest) : bool :=
  matches_lowercased account (payee_of request).

Definition isAccountPayer (account : option string)
    (request : option IParsedRequest) : bool :=
  matches_lowercased account (payer_of request).

Definition isSmartContractPayee (smartContractAddress : option string)
    (request : option IParsedRequest) : bool :=
  matches_lowercased smartContractAddress (payee_of request).

Definition isSmartContractPayer (smartContractAddress : option string)
    (request : option IParsedRequest) : bool :=
  matches_lowercased smartContractAddress (payer_of request).

(** The truthiness of [request && !!smartContractAddress && ...]; both
    operands of [===] are lower-cased here. *)
Definition isPaymentAddressSmartContract (smartContractAddress : option string)
    (request : option IParsedRequest) : bool :=
  match request with
  | None => false
  | Some r =>
    Js.truthy_opt smartContractAddress &&
    Js.strict_eq_opt (Js.toLowerCase_opt smartContractAddress)
                     (Some (Js.toLowerCase (paymentAddress r)))
  end.

(** Line 171: the payment-address line is shown when it differs from the
    payee. *)
Definition showsPaymentAddress (request : option IParsedRequest) : bool :=
  match request with
  | None => false
  | Some r =>
    negb (Js.toLowerCase (payee r) =? Js.toLowerCase (paymentAddress r))
  end.

End Body.

(** ** The [Actions] component, lines 286-360 *)
Module Actions.

Inductive View :=
| Skeletons          (* request not loaded *)
| CanceledNotice
| ReceiptAndShare    (* paid or overpaid *)
| PayNowAndShare
| ShareAndCancel.

(** The condition of lines 322-326. *)
Definition payerIsSafeOrAccount (request : IParsedRequest)
    (account smartContractAddress : option string) : bool :=
  Js.truthy_opt (payer request) &&
  (Js.strict_eq_opt (Js.toLowerCase_opt (payer request))
                    (Js.toLowerCase_opt smartContractAddress)
   || Js.strict_eq_opt (Js.toLowerCase_opt (payer request))
                       (Js.toLowerCase_opt account)).

Definition view (request : option IParsedRequest)
    (account smartContractAddress : option string) : View :=
  match request with
  | None => Skeletons
  | Some r =>
    if status r =? "canceled" then CanceledNotice
    else if (status r =? "paid") || (status r =? "overpaid")
    then ReceiptAndShare
    else if payerIsSafeOrAccount r account smartContractAddress
    then PayNowAndShare
    else ShareAndCancel
  end.

End Actions.

(** ** Reading a trace *)

Definition alerts (t : list Event) : list string :=
  flat_map (fun ev => match ev with Alert msg => [msg] | _ => [] end) t.

(** The batches handed to the Safe, in order. *)
Definition submitted (t : list Event) : list (list Tx) :=
  flat_map (fun ev => match ev with
                      | Call_sendTransactions batch => [batch]
                      | _ => []
                      end) t.

(** Calls to the funds oracle, the allowance oracle, the encoders, the
    amount helper and the proxy registries. *)
Definition is_collaborator_call (ev : Event) : bool :=
  match ev with
  | Call_hasSufficientFunds _ _ | Call_hasErc20Approval _ _
  | Call_encodeApproveErc20 _ | Call_encodePayErc20Request _
  | Call_encodePayEthProxyRequest _ | Call_erc20Proxy_getAddress _
  | Call_ethereumProxy_getAddress _ | Call_getAmountToPay _ => true
  | _ => false
  end.

Definition collaborator_calls (t : list Event) : list Event :=
  filter is_collaborator_call t.

(** The two queries that take the payer's chain address. *)
Definition is_oracle_query (ev : Event) : bool :=
  match ev with
  | Call_hasSufficientFunds _ _ | Call_hasErc20Approval _ _ => true
  | _ => false
  end.

Definition besides_oracle_queries (t : list Event) : list Event :=
  filter (fun ev => negb (is_oracle_query ev)) t.

(** Two addresses that differ at most in letter case. *)
Definition same_modulo_case (a b : string) : Prop :=
  Js.toLowerCase a = Js.toLowerCase b.

Definition same_modulo_case_opt (a b : option string) : Prop :=
  Js.toLowerCase_opt a = Js.toLowerCase_opt b.

(** An address stored in lower case. *)
Definition lowercased (a : string) : Prop := Js.toLowerCase a = a.

(** ** Test doubles used by the examples *)
Module Sample.

Definition userRejected : Js.Error := Js.mkError "User denied transaction" (Some 4001%Z).
Definition networkDown : Js.Error := Js.mkError "network error" None.
Definition noDeployment : Js.Error := Js.mkError "No deployment for network" None.

Definition resolve (proxy : Address) (n : option string) : Js.Error + Address :=
  match n with
  | Some name => if name =? "mainnet" then inr proxy else inl noDeployment
  | None => inl noDeployment
  end.

Definition sdk : Collaborators :=
  {| hasSufficientFunds := fun _ a => inr (negb (a =? "0xpoor"));
     hasErc20Approval := fun _ a => inr (a =? "0xapproved");
     encodeApproveErc20 := fun r => "approve:" ++ rawRequestId r;
     encodePayErc20Request := fun r => "payErc20:" ++ rawRequestId r;
     encodePayEthProxyRequest := fun r => "payEth:" ++ rawRequestId r;
     erc20ProxyArtifact_getAddress := resolve "0xERC20PROXY";
     ethereumProxyArtifact_getAddress := resolve "0xETHPROXY";
     getAmountToPay := fun _ => 500%Z;
     cancelRequest := fun _ account _ =>
       if account =? "0xrejecting" then inl userRejected
       else if account =? "0xoffline" then inl networkDown
       else inr tt;
     isCancelError := fun e =>
       match Js.code e with Some c => (c =? 4001)%Z | None => false end;
     update := inr tt |}.

Definition rawOf (kind : string) : IRequestData :=
  {| rawRequestId := "01abc";
     expectedAmount := "500";
     currencyInfo := {| Currency.type := kind;
                        Currency.value := "0xTOKEN";
                        Currency.network := Some "mainnet" |} |}.

Definition requestOf (kind : string) : IParsedRequest :=
  {| requestId := "01abc";
     payee := "0xpayee";
     payer := Some "0xsafe";
     paymentAddress := "0xPayee";
     status := "open";
     raw := rawOf kind |}.

Definition safe (a : Address) : SafeInfo := {| safeAddress := a |}.

End Sample.

(** ** What a run of [pay] shows to the outside *)

(** The four currency types the page tests for. *)
Definition recognized (kind : string) : bool :=
  existsb (String.eqb kind) ["ERC20"; "ETH"; "BTC"; "ISO4217"].

(** The page reports a failure either by throwing or by an [alert]. *)
Definition signals_failure (out : Completion unit * State) : Prop :=
  (exists e, fst out = Throw e) \/ alerts (trace (snd out)) <> [].

(** ** Test doubles for the failing collaborators *)
Module Faulty.

(** Both oracles reject. *)
Definition oraclesDown : Collaborators :=
  {| hasSufficientFunds := fun _ _ => inl Sample.networkDown;
     hasErc20Approval := fun _ _ => inl Sample.networkDown;
     encodeApproveErc20 := encodeApproveErc20 Sample.sdk;
     encodePayErc20Request := encodePayErc20Request Sample.sdk;
     encodePayEthProxyRequest := encodePayEthProxyRequest Sample.sdk;
     erc20ProxyArtifact_getAddress := erc20ProxyArtifact_getAddress Sample.sdk;
     ethereumProxyArtifact_getAddress :=
       ethereumProxyArtifact_getAddress Sample.sdk;
     getAmountToPay := getAmountToPay Sample.sdk;
     cancelRequest := cancelRequest Sample.sdk;
     isCancelError := isCancelError Sample.sdk;
     update := update Sample.sdk |}.

(** A request on a network the sample registries have no deployment for. *)
Definition requestOnUnknownNetwork (kind : string) : IParsedRequest :=
  {| requestId := "01abc";
     payee := "0xpayee";
     payer := Some "0xsafe";
     paymentAddress := "0xpayee";
     status := "open";
     raw := {| rawRequestId := "01abc";
               expectedAmount := "500";
               currencyInfo := {| Currency.type := kind;
                                  Currency.value := "0xTOKEN";
                                  Currency.network := Some "testnet" |} |} |}.

End Faulty.

(** ** Requests stored with a given payee and payer *)
Module MixedCase.

(** The payment address is the payee. *)
Definition request (payeeAddress payerAddress : string) : IParsedRequest :=
  {| requestId := "01abc";
     payee := payeeAddress;
     payer := Some payerAddress;
     paymentAddress := payeeAddress;
     status := "open";
     raw := Sample.rawOf "ETH" |}.

End MixedCase.

(** ** What [Actions] renders, lines 268-360

    The two state variables of the component are [paying] (line 268) and
    [copied] (line 269). *)
Module ActionsRender.

Inductive Handler :=
| Download     (* onClick={download} *)
| Share        (* onClick={share} *)
| ClickPay     (* onClick={clickPay} *)
| Cancel.      (* onClick={cancel} *)

Inductive Line :=
| Skeleton
| Text (content : string)
| LinkTo (primary : bool) (handler : Handler) (content : string).

Definition render (paying copied : bool) (request : option IParsedRequest)
    (account smartContractAddress : option string) : list Line :=
  match request with
  | None => [Skeleton; Skeleton]
  | Some r =>
    if status r =? "canceled" then
      [Text "No action to take here. This request has been canceled."]
    else if (status r =? "paid") || (status r =? "overpaid") then
      [LinkTo true Download "Download PDF receipt";
       LinkTo false Share (if copied then "Copied!" else "Share this request")]
    else if Actions.payerIsSafeOrAccount r account smartContractAddress then
      [if paying then Text "Paying..." else LinkTo true ClickPay "Pay now";
       LinkTo false Share (if copied then "Copied!" else "Share this request")]
    else
      [LinkTo true Share
         (if copied then "Copied!" else "Copy link to share this request");
       LinkTo false Cancel "Cancel this request"]
  end.

End ActionsRender.

(** ** More JavaScript string primitives *)
Module JsString.

(** How [slice] reads one index: a negative index counts from the end, and
    the result is clamped to the string. *)
Definition clamp (len i : Z) : Z :=
  if (i <? 0)%Z then Z.max (len + i) 0 else Z.min i len.

(** [s.slice(start, end)]; [end] may be left out. *)
Definition slice (s : string) (start : Z) (end_ : option Z) : string :=
  let len := Z.of_nat (String.length s) in
  let from := clamp len start in
  let upto := match end_ with Some e => clamp len e | None => len end in
  substring (Z.to_nat from) (Z.to_nat (Z.max (upto - from) 0)) s.

End JsString.

(** ** [UserInfo]: the name shown on the account button
    ([packages/create/src/components/UserInfo.tsx], lines 35-36) *)
Module UserInfo.

Definition displayName (name : string) : string :=
  if (String.length name <=? 20)%nat then name
  else JsString.slice name 0 (Some 10%Z) ++ "..." ++
       JsString.slice name (-10) None.

End UserInfo.

(** ** What [Body] prints next to the addresses *)
Module BodyView.

Inductive Label :=
| You       (* <strong> (You)</strong> *)
| Safe      (* <strong> (Safe)</strong> *)
| NoLabel.

(** Lines 156-162. *)
Definition payeeLabel (account smartContractAddress : option string)
    (request : option IParsedRequest) : Label :=
  if Body.isAccountPayee account request then You
  else if Body.isSmartContractPayee smartContractAddress request then Safe
  else NoLabel.

(** Lines 200-206. *)
Definition payerLabel (account smartContractAddress : option string)
    (request : option IParsedRequest) : Label :=
  if Body.isAccountPayer account request then You
  else if Body.isSmartContractPayer smartContractAddress request then Safe
  else NoLabel.

(** Line 180. *)
Definition paymentAddressLabel (smartContractAddress : option string)
    (request : option IParsedRequest) : Label :=
  if Body.isPaymentAddressSmartContract smartContractAddress request
  then Safe else NoLabel.

(** Line 191: the "To" line is there while loading and for a request with a
    payer. *)
Definition showsPayer (request : option IParsedRequest) : bool :=
  match request with
  | None => true
  | Some r => Js.truthy_opt (payer r)
  end.

End BodyView.

(** ** The [RequestPage] component, lines 459-484 *)
Module Page.

(** [account || undefined], line 475. *)
Definition actionsAccount (account : option string) : option string :=
  if Js.truthy_opt account then account else None.

(** [safeInfo?.safeAddress], lines 469 and 480. *)
Definition smartContractAddress (safeInfo : option SafeInfo) : option string :=
  option_map safeAddress safeInfo.

Inductive View :=
| RequestNotFound
| Details (payeeLabel payerLabel : BodyView.Label) (actions : Actions.View).

Definition render (loading : bool) (request : option IParsedRequest)
    (account : option string) (safeInfo : option SafeInfo) : View :=
  if negb loading && match request with None => true | Some _ => false end
  then RequestNotFound
  else Details
         (BodyView.payeeLabel account (smartContractAddress safeInfo) request)
         (BodyView.payerLabel account (smartContractAddress safeInfo) request)
         (Actions.view request (actionsAccount account)
                       (smartContractAddress safeInfo)).

End Page.

(** ** [clickPay], lines 277-284 *)
Module PayLink.

(** What the link's handler does, in order: the [setPaying] calls of
    [Actions] and the external calls of the [pay] it awaits. *)
Inductive Step :=
| SetPaying (paying : bool)
| External (ev : Event).

(** [setPaying(true); try { await pay(); } finally { setPaying(false); }].
    A [return] inside [pay] ends [pay] only; a throw passes the [finally]
    block and then leaves [clickPay]. *)
Definition clickPay (pay : M unit) : Completion unit * list Step :=
  let (completion, final) := run pay in
  (match completion with
   | Throw e => Throw e
   | _ => Normal tt
   end,
   ([SetPaying true] ++ map External (trace final) ++ [SetPaying false])%list).

(** The value last given to [setPaying] by a sequence of steps, [paying0]
    when there is none. *)
Definition payingAfter (paying0 : bool) (steps : list Step) : bool :=
  fold_left (fun p st => match st with SetPaying b => b | External _ => p end)
            steps paying0.

End PayLink.

(** ** The steps [pay] can build *)
Section Steps.

Variable sdk : Collaborators.
Variable request : IParsedRequest.

Definition approveStep : Tx :=
  {| to := Currency.value (currencyInfo (raw request));
     value := VNumber 0;
     data := encodeApproveErc20 sdk (raw request) |}.

Definition payErc20Step (proxy : Address) : Tx :=
  {| to := proxy;
     value := VNumber 0;
     data := encodePayErc20Request sdk (raw request) |}.

Definition payEthStep (proxy : Address) : Tx :=
  {| to := proxy;
     value := VString (Js.BigNumber_toString (getAmountToPay sdk (raw request)));
     data := encodePayEthProxyRequest sdk (raw request) |}.

End Steps.

(** Calls to an encoder, to the amount helper or to a proxy registry. *)
Definition is_build_call (ev : Event) : bool :=
  is_collaborator_call ev && negb (is_oracle_query ev).

(** * Examples *)

Example toLowerCase_checksummed :
  Js.toLowerCase "0xAbCdEF0123456789zZ" = "0xabcdef0123456789zz".
Proof. reflexivity. Qed.

Example BigNumber_toString_500 : Js.BigNumber_toString 500 = "500".
Proof. reflexivity. Qed.

(** The Safe is the payer of the sample request, so the page offers
    "Pay now"; once paid it offers the receipt. *)
Example view_open_request :
  Actions.view (Some (Sample.requestOf "ERC20")) None (Some "0xSAFE") =
  Actions.PayNowAndShare.
Proof. reflexivity. Qed.

Example view_other_account :
  Actions.view (Some (Sample.requestOf "ERC20")) (Some "0xelse") None =
  Actions.ShareAndCancel.
Proof. reflexivity. Qed.

(** An unknown network makes the registry throw: the approval step is
    already in [txs], the payment step is not, and nothing is submitted. *)
Example pay_erc20_unknown_network :
  let raw' := {| rawRequestId := "01abc"; expectedAmount := "500";
                 currencyInfo := {| Currency.type := "ERC20";
                                    Currency.value := "0xTOKEN";
                                    Currency.network := None |} |} in
  let request := {| requestId := "01abc"; payee := "0xpayee";
                    payer := Some "0xsafe"; paymentAddress := "0xpayee";
                    status := "open"; raw := raw' |} in
  let out := run (RequestPage.pay Sample.sdk (Some request)
                    (Some (Sample.safe "0xsafe")) (Some appsSdkInstance)) in
  fst out = Throw Sample.noDeployment /\ submitted (trace (snd out)) = [].
Proof. split; reflexivity. Qed.

(** [cancel] on a page that is not ready. *)
Example cancel_without_account :
  run (RequestPage.cancel Sample.sdk (Some (Sample.requestOf "ETH")) None
         (Some 1%Z)) =
  (Throw (Js.mkError "cannot cancel because page is not ready" None), initial).
Proof. reflexivity. Qed.

Example cancel_succeeds :
  run (RequestPage.cancel Sample.sdk (Some (Sample.requestOf "ETH"))
         (Some "0xpayee") (Some 1%Z)) =
  (Normal tt,
   {| txs := []; trace := [Call_cancelRequest "01abc" "0xpayee" 1; Call_update] |}).
Proof. reflexivity. Qed.

(** * Properties of [pay] *)

Section PayProperties.

Variable sdk : Collaborators.
Variable request : IParsedRequest.
Variable safeInfo : SafeInfo.
Variable appsSdk : option AppsSdk.

Local Abbreviation kind := (Currency.type (currencyInfo (raw request))).
Local Abbreviation network := (Currency.network (currencyInfo (raw request))).
Local Abbreviation tokenContractAddress :=
  (Currency.value (currencyInfo (raw request))).
Local Abbreviation payerChainAddress := (safeAddress safeInfo).

(** Unfolds one run of [pay] down to the tests on the currency type. *)
Ltac start_pay := unfold run, RequestPage.pay in *.

(** Steps through the monadic plumbing once the tests are decided. *)
Ltac step_pay :=
  cbn [when bind call call_fallible emit alert push get_txs ret return_ throw
       initial negb fst snd txs trace app String.eqb Ascii.eqb Bool.eqb
       alerts submitted collaborator_calls is_collaborator_call flat_map filter].

Lemma kind_unrecognized :
  recognized kind = false ->
  (kind =? "ERC20") = false /\ (kind =? "ETH") = false /\
  (kind =? "BTC") = false /\ (kind =? "ISO4217") = false.
Proof.
  unfold recognized. cbn [existsb]. intros H.
  repeat (apply orb_false_elim in H; destruct H as [? H]). auto.
Qed.

(** C4.  With insufficient funds, on the token route and on the native
    route alike, [pay] returns after the alert "Insufficient funds": the
    batch is empty and nothing reaches the Safe. *)
Theorem pay_insufficient_funds_blocks :
  kind = "ERC20" \/ kind = "ETH" ->
  hasSufficientFunds sdk (raw request) payerChainAddress = inr false ->
  let out := run (RequestPage.pay sdk (Some request) (Some safeInfo) appsSdk) in
  fst out = Return /\
  alerts (trace (snd out)) = ["Insufficient funds"] /\
  txs (snd out) = [] /\
  submitted (trace (snd out)) = [].
Proof.
  intros Hkind Hfunds. start_pay.
  destruct Hkind as [-> | ->]; step_pay; rewrite Hfunds; step_pay; auto.
Qed.

(** C5.  For a BTC or an ISO4217 request [pay] returns after the alert
    "not implemented"; that alert is the whole trace, so no oracle, encoder
    or registry was called and nothing was submitted. *)
Theorem pay_unsupported_currency_no_calls :
  kind = "BTC" \/ kind = "ISO4217" ->
  let out := run (RequestPage.pay sdk (Some request) (Some safeInfo) appsSdk) in
  fst out = Return /\
  trace (snd out) = [Alert "not implemented"] /\
  collaborator_calls (trace (snd out)) = [] /\
  txs (snd out) = [].
Proof.
  intros Hkind. start_pay.
  destruct Hkind as [-> | ->]; step_pay; auto.
Qed.

(** C6, as the code has it.  For a currency type outside the four tested
    ones [pay] runs to its end without an alert or a throw and without
    calling any collaborator; the batch it holds is empty, and that empty
    batch is what the Safe receives when the SDK handle is present. *)
Theorem pay_unrecognized_kind_falls_through :
  recognized kind = false ->
  run (RequestPage.pay sdk (Some request) (Some safeInfo) appsSdk) =
  (Normal tt,
   {| txs := [];
      trace := match appsSdk with
               | Some _ => [Call_sendTransactions []]
               | None => []
               end |}).
Proof.
  intros H. apply kind_unrecognized in H.
  destruct H as (H1 & H2 & H3 & H4). start_pay.
  rewrite H1, H2, H3, H4. destruct appsSdk; reflexivity.
Qed.

(** C1.  On the token route with sufficient funds and insufficient
    allowance the batch has exactly two steps, in this order: the approval
    (to the token contract, value 0, the approve payload) and then the
    payment (to the resolved ERC20 proxy, value 0, the pay payload).  With the
    SDK handle present this batch is the one submitted. *)
Theorem pay_erc20_approval_precedes_payment (proxy : Address) :
  kind = "ERC20" ->
  hasSufficientFunds sdk (raw request) payerChainAddress = inr true ->
  hasErc20Approval sdk (raw request) payerChainAddress = inr false ->
  erc20ProxyArtifact_getAddress sdk network = inr proxy ->
  let approveStep := {| to := tokenContractAddress;
                        value := VNumber 0;
                        data := encodeApproveErc20 sdk (raw request) |} in
  let payStep := {| to := proxy;
                    value := VNumber 0;
                    data := encodePayErc20Request sdk (raw request) |} in
  let out := run (RequestPage.pay sdk (Some request) (Some safeInfo) appsSdk) in
  fst out = Normal tt /\
  length (txs (snd out)) = 2%nat /\
  txs (snd out) = [approveStep; payStep] /\
  submitted (trace (snd out)) =
    match appsSdk with Some _ => [[approveStep; payStep]] | None => [] end.
Proof.
  intros Hkind Hfunds Happroval Hproxy. start_pay.
  rewrite Hkind. step_pay.
  rewrite Hfunds. step_pay. rewrite Happroval. step_pay.
  rewrite Hproxy. step_pay.
  destruct appsSdk; step_pay; auto.
Qed.

(** C2.  On the token route with sufficient funds and sufficient allowance
    the batch is the payment step alone (resolved ERC20 proxy, value 0, the
    pay payload); the approve encoder is not even called. *)
Theorem pay_erc20_approved_single_step (proxy : Address) :
  kind = "ERC20" ->
  hasSufficientFunds sdk (raw request) payerChainAddress = inr true ->
  hasErc20Approval sdk (raw request) payerChainAddress = inr true ->
  erc20ProxyArtifact_getAddress sdk network = inr proxy ->
  let payStep := {| to := proxy;
                    value := VNumber 0;
                    data := encodePayErc20Request sdk (raw request) |} in
  let out := run (RequestPage.pay sdk (Some request) (Some safeInfo) appsSdk) in
  fst out = Normal tt /\
  txs (snd out) = [payStep] /\
  (~ In (Call_encodeApproveErc20 (raw request)) (trace (snd out))) /\
  submitted (trace (snd out)) =
    match appsSdk with Some _ => [[payStep]] | None => [] end.
Proof.
  intros Hkind Hfunds Happroval Hproxy. start_pay.
  rewrite Hkind. step_pay.
  rewrite Hfunds. step_pay. rewrite Happroval. step_pay.
  rewrite Hproxy. step_pay.
  destruct appsSdk; step_pay; repeat split; auto;
    intros Hin; cbn [In] in Hin; intuition discriminate.
Qed.

(** C3.  On the native route with sufficient funds the batch is one step:
    to the resolved ETH proxy, with the amount to pay rendered as a decimal
    string for value and the pay-eth-proxy payload for data. *)
Theorem pay_eth_single_step (proxy : Address) :
  kind = "ETH" ->
  hasSufficientFunds sdk (raw request) payerChainAddress = inr true ->
  ethereumProxyArtifact_getAddress sdk network = inr proxy ->
  let payStep :=
    {| to := proxy;
       value := VString (Js.BigNumber_toString (getAmountToPay sdk (raw request)));
       data := encodePayEthProxyRequest sdk (raw request) |} in
  let out := run (RequestPage.pay sdk (Some request) (Some safeInfo) appsSdk) in
  fst out = Normal tt /\
  txs (snd out) = [payStep] /\
  submitted (trace (snd out)) =
    match appsSdk with Some _ => [[payStep]] | None => [] end.
Proof.
  intros Hkind Hfunds Hproxy. start_pay.
  rewrite Hkind. step_pay.
  rewrite Hfunds. step_pay. rewrite Hproxy. step_pay.
  destruct appsSdk; step_pay; auto.
Qed.

End PayProperties.

(** C10.  Without a parsed request, or without the Safe information, [pay]
    returns right after its alert: no oracle, encoder or registry is called,
    no step is built and nothing is submitted. *)
Theorem pay_returns_early_when_page_not_ready
    (sdk : Collaborators) (request : option IParsedRequest)
    (safeInfo : option SafeInfo) (appsSdk : option AppsSdk) :
  request = None \/ safeInfo = None ->
  let out := run (RequestPage.pay sdk request safeInfo appsSdk) in
  fst out = Return /\
  trace (snd out) =
    [Alert match request with
           | None => "Request not found"
           | Some _ => "Safe Info not found"
           end] /\
  collaborator_calls (trace (snd out)) = [] /\
  txs (snd out) = [] /\
  submitted (trace (snd out)) = [].
Proof.
  intros [-> | ->]; [ | destruct request ]; cbv; auto.
Qed.

(** C8.  The Safe address only selects the oracle answers.  Two runs of
    [pay] on the same request whose two oracle queries are answered alike end
    the same way, hold the same batch (targets, values and payloads) and
    agree on every external call other than the two oracle queries, the
    submitted batch included, whatever the two Safe addresses are. *)
Theorem pay_batch_independent_of_payer
    (sdk : Collaborators) (request : IParsedRequest)
    (safe1 safe2 : SafeInfo) (appsSdk : option AppsSdk) :
  hasSufficientFunds sdk (raw request) (safeAddress safe1) =
  hasSufficientFunds sdk (raw request) (safeAddress safe2) ->
  hasErc20Approval sdk (raw request) (safeAddress safe1) =
  hasErc20Approval sdk (raw request) (safeAddress safe2) ->
  let out1 := run (RequestPage.pay sdk (Some request) (Some safe1) appsSdk) in
  let out2 := run (RequestPage.pay sdk (Some request) (Some safe2) appsSdk) in
  fst out1 = fst out2 /\
  txs (snd out1) = txs (snd out2) /\
  submitted (trace (snd out1)) = submitted (trace (snd out2)) /\
  besides_oracle_queries (trace (snd out1)) =
  besides_oracle_queries (trace (snd out2)).
Proof.
  intros Hfunds Happroval.
  unfold run, RequestPage.pay.
  unfold when, bind, call, call_fallible, emit, alert, push, get_txs, ret,
    return_, throw.
  rewrite <- Hfunds, <- Happroval.
  destruct (Currency.type (currencyInfo (raw request)) =? "ERC20");
    destruct (Currency.type (currencyInfo (raw request)) =? "ETH");
    destruct (Currency.type (currencyInfo (raw request)) =? "BTC");
    destruct (Currency.type (currencyInfo (raw request)) =? "ISO4217");
    destruct (hasSufficientFunds sdk (raw request) (safeAddress safe1))
      as [e | []];
    destruct (hasErc20Approval sdk (raw request) (safeAddress safe1))
      as [e' | []];
    destruct (erc20ProxyArtifact_getAddress sdk
                (Currency.network (currencyInfo (raw request))));
    destruct (ethereumProxyArtifact_getAddress sdk
                (Currency.network (currencyInfo (raw request))));
    destruct appsSdk; cbn; auto.
Qed.

(** C6, counterexample.  An "ERC777" request is not rejected: [pay] neither
    throws nor alerts (and, the SDK handle being present, it calls
    [sendTransactions] with the empty batch). *)
Lemma pay_unrecognized_kind_not_rejected :
  ~ (forall sdk request safeInfo appsSdk,
        recognized (Currency.type (currencyInfo (raw request))) = false ->
        signals_failure
          (run (RequestPage.pay sdk (Some request) (Some safeInfo) appsSdk))).
Proof.
  intros H.
  specialize (H Sample.sdk (Sample.requestOf "ERC777") (Sample.safe "0xsafe")
                (Some appsSdkInstance) eq_refl).
  destruct H as [[e He] | Halert].
  - discriminate He.
  - apply Halert. reflexivity.
Qed.

(** * Properties of [cancel] *)



(** * Address comparisons and letter case *)

Lemma truthy_toLowerCase (s : string) :
  Js.truthy (Js.toLowerCase s) = Js.truthy s.
Proof. destruct s; reflexivity. Qed.

Lemma same_modulo_case_truthy (a b : string) :
  same_modulo_case a b -> Js.truthy a = Js.truthy b.
Proof.
  unfold same_modulo_case. intros H.
  rewrite <- (truthy_toLowerCase a), <- (truthy_toLowerCase b).
  now rewrite H.
Qed.

Lemma same_modulo_case_opt_truthy (a b : option string) :
  same_modulo_case_opt a b -> Js.truthy_opt a = Js.truthy_opt b.
Proof.
  unfold same_modulo_case_opt.
  destruct a as [a | ], b as [b | ]; cbn; intros H; try discriminate.
  - apply same_modulo_case_truthy. injection H as H. exact H.
  - reflexivity.
Qed.

(** A one-sided comparison depends on its lower-cased operand only through
    that operand's lower-casing. *)
Lemma matches_lowercased_left (x x' y : option string) :
  same_modulo_case_opt x x' ->
  Body.matches_lowercased x y = Body.matches_lowercased x' y.
Proof.
  intros H. unfold Body.matches_lowercased.
  rewrite (same_modulo_case_opt_truthy x x' H).
  unfold same_modulo_case_opt in H. now rewrite H.
Qed.

(** The comparisons that lower-case both operands, the payment-address test
    of [Body] (line 116) and the payer test of [Actions] (lines 322-326), do
    not depend on the letter case of any address they look at. *)
Lemma two_sided_comparisons_modulo_case
    (account account' smartContractAddress smartContractAddress' : option string)
    (r r' : IParsedRequest) :
  same_modulo_case_opt account account' ->
  same_modulo_case_opt smartContractAddress smartContractAddress' ->
  same_modulo_case (paymentAddress r) (paymentAddress r') ->
  same_modulo_case_opt (payer r) (payer r') ->
  Body.isPaymentAddressSmartContract smartContractAddress (Some r) =
  Body.isPaymentAddressSmartContract smartContractAddress' (Some r') /\
  Actions.payerIsSafeOrAccount r account smartContractAddress =
  Actions.payerIsSafeOrAccount r' account' smartContractAddress'.
Proof.
  intros Hacc Hsafe Hpayment Hpayer. split.
  - unfold Body.isPaymentAddressSmartContract.
    rewrite (same_modulo_case_opt_truthy _ _ Hsafe).
    unfold same_modulo_case_opt in Hsafe. unfold same_modulo_case in Hpayment.
    now rewrite Hsafe, Hpayment.
  - unfold Actions.payerIsSafeOrAccount.
    rewrite (same_modulo_case_opt_truthy _ _ Hpayer).
    unfold same_modulo_case_opt in *. now rewrite Hpayer, Hsafe, Hacc.
Qed.


(** * The theorems at concrete requests *)

Lemma pay_erc20_approval_precedes_payment_witness :
  txs (snd (run (RequestPage.pay Sample.sdk (Some (Sample.requestOf "ERC20"))
                   (Some (Sample.safe "0xsafe")) (Some appsSdkInstance)))) =
  [ {| to := "0xTOKEN"; value := VNumber 0; data := "approve:01abc" |};
    {| to := "0xERC20PROXY"; value := VNumber 0; data := "payErc20:01abc" |} ].
Proof.
  apply (pay_erc20_approval_precedes_payment Sample.sdk
           (Sample.requestOf "ERC20") (Sample.safe "0xsafe")
           (Some appsSdkInstance) "0xERC20PROXY"); reflexivity.
Defined.

Lemma pay_erc20_approved_single_step_witness :
  txs (snd (run (RequestPage.pay Sample.sdk (Some (Sample.requestOf "ERC20"))
                   (Some (Sample.safe "0xapproved")) (Some appsSdkInstance)))) =
  [ {| to := "0xERC20PROXY"; value := VNumber 0; data := "payErc20:01abc" |} ].
Proof.
  apply (pay_erc20_approved_single_step Sample.sdk
           (Sample.requestOf "ERC20") (Sample.safe "0xapproved")
           (Some appsSdkInstance) "0xERC20PROXY"); reflexivity.
Defined.

Lemma pay_eth_single_step_witness :
  txs (snd (run (RequestPage.pay Sample.sdk (Some (Sample.requestOf "ETH"))
                   (Some (Sample.safe "0xsafe")) (Some appsSdkInstance)))) =
  [ {| to := "0xETHPROXY"; value := VString "500"; data := "payEth:01abc" |} ].
Proof.
  apply (pay_eth_single_step Sample.sdk (Sample.requestOf "ETH")
           (Sample.safe "0xsafe") (Some appsSdkInstance) "0xETHPROXY");
    reflexivity.
Defined.

Lemma pay_insufficient_funds_blocks_witness :
  alerts (trace (snd (run (RequestPage.pay Sample.sdk
                             (Some (Sample.requestOf "ERC20"))
                             (Some (Sample.safe "0xpoor"))
                             (Some appsSdkInstance))))) =
  ["Insufficient funds"].
Proof.
  apply (pay_insufficient_funds_blocks Sample.sdk (Sample.requestOf "ERC20")
           (Sample.safe "0xpoor") (Some appsSdkInstance)).
  - left. reflexivity.
  - reflexivity.
Defined.

Lemma pay_unsupported_currency_no_calls_witness :
  trace (snd (run (RequestPage.pay Sample.sdk (Some (Sample.requestOf "BTC"))
                     (Some (Sample.safe "0xsafe")) (Some appsSdkInstance)))) =
  [Alert "not implemented"].
Proof.
  apply (pay_unsupported_currency_no_calls Sample.sdk (Sample.requestOf "BTC")
           (Sample.safe "0xsafe") (Some appsSdkInstance)).
  left. reflexivity.
Defined.

Lemma pay_unrecognized_kind_falls_through_witness :
  run (RequestPage.pay Sample.sdk (Some (Sample.requestOf "ERC777"))
         (Some (Sample.safe "0xsafe")) (Some appsSdkInstance)) =
  (Normal tt, {| txs := []; trace := [Call_sendTransactions []] |}).
Proof.
  apply (pay_unrecognized_kind_falls_through Sample.sdk
           (Sample.requestOf "ERC777") (Sample.safe "0xsafe")
           (Some appsSdkInstance)).
  reflexivity.
Defined.

Lemma pay_returns_early_when_page_not_ready_witness :
  trace (snd (run (RequestPage.pay Sample.sdk None
                     (Some (Sample.safe "0xsafe")) (Some appsSdkInstance)))) =
  [Alert "Request not found"].
Proof.
  apply (pay_returns_early_when_page_not_ready Sample.sdk None
           (Some (Sample.safe "0xsafe")) (Some appsSdkInstance)).
  left. reflexivity.
Defined.

Lemma pay_batch_independent_of_payer_witness :
  txs (snd (run (RequestPage.pay Sample.sdk (Some (Sample.requestOf "ERC20"))
                   (Some (Sample.safe "0xsafe")) (Some appsSdkInstance)))) =
  txs (snd (run (RequestPage.pay Sample.sdk (Some (Sample.requestOf "ERC20"))
                   (Some (Sample.safe "0xother")) (Some appsSdkInstance)))).
Proof.
  apply (pay_batch_independent_of_payer Sample.sdk (Sample.requestOf "ERC20")
           (Sample.safe "0xsafe") (Sample.safe "0xother")
           (Some appsSdkInstance)); reflexivity.
Defined.


(** * What [pay] does on every input *)

Section PayInvariants.

Variable sdk : Collaborators.
Variable request : IParsedRequest.
Variable safeInfo : SafeInfo.
Variable appsSdk : option AppsSdk.

Local Abbreviation kind := (Currency.type (currencyInfo (raw request))).
Local Abbreviation network := (Currency.network (currencyInfo (raw request))).
Local Abbreviation funds :=
  (hasSufficientFunds sdk (raw request) (safeAddress safeInfo)).
Local Abbreviation approval :=
  (hasErc20Approval sdk (raw request) (safeAddress safeInfo)).
Local Abbreviation out :=
  (run (RequestPage.pay sdk (Some request) (Some safeInfo) appsSdk)).

(** Decides which of the five routes the currency type selects. *)
Ltac split_on_kind :=
  destruct (String.eqb_spec kind "ERC20") as [Hkind | Hnot20];
  [ rewrite Hkind in *
  | destruct (String.eqb_spec kind "ETH") as [Hkind | HnotEth];
    [ rewrite Hkind in *
    | destruct (String.eqb_spec kind "BTC") as [Hkind | HnotBtc];
      [ rewrite Hkind in *
      | destruct (String.eqb_spec kind "ISO4217") as [Hkind | HnotIso];
        [ rewrite Hkind in * | ] ] ] ];
  cbn [String.eqb Ascii.eqb Bool.eqb] in *.

(** Decides every answer a collaborator can give on the chosen route. *)
Ltac split_on_answers :=
  destruct funds as [fundsError | []] eqn:Hfunds;
  destruct approval as [approvalError | []] eqn:Happroval;
  destruct (erc20ProxyArtifact_getAddress sdk network)
    as [registryError | proxy] eqn:Herc20;
  destruct (ethereumProxyArtifact_getAddress sdk network)
    as [registryError' | proxy'] eqn:Heth;
  destruct appsSdk as [handle | ];
  cbn in *.

Ltac open_pay :=
  unfold run, RequestPage.pay, when, bind, call, call_fallible, emit, alert,
    push, get_txs, ret, return_, throw in *.

Lemma unrecognized_of_tests :
  kind <> "ERC20" -> kind <> "ETH" -> kind <> "BTC" -> kind <> "ISO4217" ->
  recognized kind = false.
Proof.
  intros H1 H2 H3 H4. unfold recognized. cbn [existsb].
  apply String.eqb_neq in H1, H2, H3, H4. now rewrite H1, H2, H3, H4.
Qed.

(** Whatever [pay] hands to the Safe has one of four shapes, and a
    non-empty batch is only handed over after the funds oracle answered
    [true]: the empty batch (currency type not among the four), the payment
    step alone or the approval followed by the payment (token route,
    according to the allowance answer), or the one native step. *)
Theorem pay_submitted_batch_shape (batch : list Tx) :
  In batch (submitted (trace (snd out))) ->
  (recognized kind = false /\ batch = []) \/
  (kind = "ERC20" /\ funds = inr true /\
   exists proxy, erc20ProxyArtifact_getAddress sdk network = inr proxy /\
     ((approval = inr true /\ batch = [payErc20Step sdk request proxy]) \/
      (approval = inr false /\
       batch = [approveStep sdk request; payErc20Step sdk request proxy]))) \/
  (kind = "ETH" /\ funds = inr true /\
   exists proxy, ethereumProxyArtifact_getAddress sdk network = inr proxy /\
     batch = [payEthStep sdk request proxy]).
Proof.
  open_pay. split_on_kind.
  - (* ERC20 *)
    split_on_answers; intros Hin; try contradiction;
      destruct Hin as [<- | []]; right; left;
      (split; [reflexivity | split; [reflexivity | ]]);
      eexists; (split; [reflexivity | ]); auto.
  - (* ETH *)
    split_on_answers; intros Hin; try contradiction;
      destruct Hin as [<- | []]; right; right;
      (split; [reflexivity | split; [reflexivity | ]]);
      eexists; (split; reflexivity).
  - split_on_answers; intros Hin; contradiction.
  - split_on_answers; intros Hin; contradiction.
  - pose proof (unrecognized_of_tests Hnot20 HnotEth HnotBtc HnotIso) as Hun.
    destruct appsSdk; cbn; intros Hin; try contradiction.
    destruct Hin as [<- | []]. left. auto.
Qed.

(** [pay] hands over all of its batch or nothing: either nothing is
    submitted, or the Safe SDK handle is there, no alert was raised, [pay]
    ran to its end, the one submitted batch is the whole of [txs], and the
    submission is the last thing [pay] did. *)
Theorem pay_submits_whole_batch_last :
  submitted (trace (snd out)) = [] \/
  (appsSdk <> None /\
   fst out = Normal tt /\
   alerts (trace (snd out)) = [] /\
   submitted (trace (snd out)) = [txs (snd out)] /\
   last (trace (snd out)) (Alert "") = Call_sendTransactions (txs (snd out))).
Proof.
  open_pay. split_on_kind; split_on_answers; auto;
    right; repeat split; auto; discriminate.
Qed.

(** A rejected oracle query ends [pay] with the oracle's error: no step was
    built, and apart from the oracle queries nothing was called, so there is
    no alert and no submission. *)
Theorem pay_oracle_rejection_propagates (e : Js.Error) :
  ((kind = "ERC20" \/ kind = "ETH") /\ funds = inl e) \/
  (kind = "ERC20" /\ funds = inr true /\ approval = inl e) ->
  fst out = Throw e /\
  txs (snd out) = [] /\
  besides_oracle_queries (trace (snd out)) = [].
Proof.
  intros [[[Hkind | Hkind] Hfunds] | (Hkind & Hfunds & Happroval)];
    open_pay; rewrite Hkind; cbn [String.eqb Ascii.eqb Bool.eqb];
    rewrite Hfunds; cbn; try rewrite Happroval; cbn; auto.
Qed.

(** When the ERC20 proxy registry throws, [pay] ends with that error.  The
    approval step may already sit in [txs] (when the allowance was
    insufficient), but no payment step was encoded and nothing is submitted
    or alerted. *)
Theorem pay_erc20_registry_failure_submits_nothing
    (e : Js.Error) (approved : bool) :
  kind = "ERC20" ->
  funds = inr true ->
  approval = inr approved ->
  erc20ProxyArtifact_getAddress sdk network = inl e ->
  fst out = Throw e /\
  txs (snd out) = (if approved then [] else [approveStep sdk request]) /\
  submitted (trace (snd out)) = [] /\
  alerts (trace (snd out)) = [] /\
  ~ In (Call_encodePayErc20Request (raw request)) (trace (snd out)).
Proof.
  intros Hkind Hfunds Happroval Hregistry. open_pay.
  rewrite Hkind. cbn [String.eqb Ascii.eqb Bool.eqb].
  rewrite Hfunds. cbn. rewrite Happroval.
  destruct approved; cbn; rewrite Hregistry; cbn;
    repeat split; auto; intros Hin; intuition discriminate.
Qed.

(** When the ETH proxy registry throws, [pay] ends with that error right
    after the lookup: the amount helper and the encoder are not called, no
    step is built and nothing is submitted. *)
Theorem pay_eth_registry_failure_submits_nothing (e : Js.Error) :
  kind = "ETH" ->
  funds = inr true ->
  ethereumProxyArtifact_getAddress sdk network = inl e ->
  out =
  (Throw e,
   {| txs := [];
      trace := [Call_hasSufficientFunds (raw request) (safeAddress safeInfo);
                Call_ethereumProxy_getAddress network] |}).
Proof.
  intros Hkind Hfunds Hregistry. open_pay.
  rewrite Hkind. cbn [String.eqb Ascii.eqb Bool.eqb].
  rewrite Hfunds. cbn. rewrite Hregistry. reflexivity.
Qed.

(** [pay] calls an encoder, the amount helper or a proxy registry only on
    the token and native routes, and only after the funds oracle answered
    [true]. *)
Theorem pay_builds_only_after_funds_confirmed (ev : Event) :
  In ev (trace (snd out)) ->
  is_build_call ev = true ->
  funds = inr true /\ (kind = "ERC20" \/ kind = "ETH").
Proof.
  open_pay. split_on_kind; split_on_answers; intros Hin Hbuild;
    repeat (destruct Hin as [<- | Hin]; [try discriminate Hbuild | ]);
    try contradiction; auto.
Qed.

(** Every oracle query of [pay] is about this request and the Safe's
    address.  The funds oracle is asked on the token and native routes only;
    the allowance oracle on the token route only, after the funds oracle
    answered [true]. *)
Theorem pay_oracle_queries_are_about_the_safe (ev : Event) :
  In ev (trace (snd out)) ->
  is_oracle_query ev = true ->
  (ev = Call_hasSufficientFunds (raw request) (safeAddress safeInfo) /\
   (kind = "ERC20" \/ kind = "ETH")) \/
  (ev = Call_hasErc20Approval (raw request) (safeAddress safeInfo) /\
   kind = "ERC20" /\ funds = inr true).
Proof.
  open_pay. split_on_kind; split_on_answers; intros Hin Hquery;
    repeat (destruct Hin as [<- | Hin]; [try discriminate Hquery | ]);
    try contradiction; auto.
Qed.

(** An alert of [pay] has one of two causes: "Insufficient funds" after the
    funds oracle answered [false] on the token or native route, "not
    implemented" for BTC and ISO4217.  In both cases [pay] returns with an
    empty batch and submits nothing. *)
Theorem pay_alert_causes (msg : string) :
  In msg (alerts (trace (snd out))) ->
  fst out = Return /\
  txs (snd out) = [] /\
  submitted (trace (snd out)) = [] /\
  ((msg = "Insufficient funds" /\ funds = inr false /\
    (kind = "ERC20" \/ kind = "ETH")) \/
   (msg = "not implemented" /\ (kind = "BTC" \/ kind = "ISO4217"))).
Proof.
  open_pay. split_on_kind; split_on_answers; intros Hin;
    try contradiction; destruct Hin as [<- | []]; auto 8.
Qed.

End PayInvariants.

(** * The account button's name *)

Lemma string_length_append (p r : string) :
  String.length (p ++ r) = (String.length p + String.length r)%nat.
Proof. induction p as [ | c p IH]; cbn; [reflexivity | now rewrite IH]. Qed.

Lemma substring_all (s : string) : substring 0 (String.length s) s = s.
Proof. induction s as [ | c s IH]; cbn; [reflexivity | now rewrite IH]. Qed.

Lemma substring_prefix (p r : string) :
  substring 0 (String.length p) (p ++ r) = p.
Proof.
  induction p as [ | c p IH]; cbn.
  - destruct r; reflexivity.
  - now rewrite IH.
Qed.

Lemma substring_suffix (p r : string) :
  substring (String.length p) (String.length r) (p ++ r) = r.
Proof.
  induction p as [ | c p IH]; cbn; [apply substring_all | exact IH].
Qed.

(** A string can be cut at any position up to its length. *)
Lemma string_cut (n : nat) (s : string) :
  (n <= String.length s)%nat ->
  exists p r, s = p ++ r /\ String.length p = n.
Proof.
  revert s. induction n as [ | n IH]; intros s Hn.
  - exists "", s. split; reflexivity.
  - destruct s as [ | c s]; cbn in Hn; [lia | ].
    destruct (IH s) as (p & r & -> & Hp); [lia | ].
    exists (String c p), r. cbn. split; [reflexivity | now rewrite Hp].
Qed.

(** The long branch of [displayName], with the two [slice] calls
    evaluated. *)
Lemma displayName_long (name : string) :
  (20 < String.length name)%nat ->
  exists first middle last_,
    name = first ++ middle ++ last_ /\
    String.length first = 10%nat /\
    String.length last_ = 10%nat /\
    UserInfo.displayName name = first ++ "..." ++ last_.
Proof.
  intros Hlong.
  destruct (string_cut 10 name) as (first & rest & Hname & Hfirst); [lia | ].
  assert (Hrest : (10 < String.length rest)%nat).
  { rewrite Hname, string_length_append in Hlong. lia. }
  destruct (string_cut (String.length rest - 10) rest)
    as (middle & last_ & Hrest_eq & Hmiddle); [lia | ].
  assert (Hlast : String.length last_ = 10%nat).
  { rewrite Hrest_eq, string_length_append in Hrest.
    assert (String.length rest = (String.length middle + String.length last_)%nat)
      by (rewrite Hrest_eq at 1; apply string_length_append).
    lia. }
  exists first, middle, last_.
  split; [now rewrite Hname, Hrest_eq | ].
  split; [exact Hfirst | ]. split; [exact Hlast | ].
  unfold UserInfo.displayName.
  destruct (Nat.leb_spec (String.length name) 20) as [Hle | _]; [lia | ].
  assert (Hlen : String.length name =
                 (10 + String.length middle + 10)%nat).
  { rewrite Hname, Hrest_eq, !string_length_append. lia. }
  unfold JsString.slice, JsString.clamp. rewrite Hlen.
  replace (0 <? 0)%Z with false by reflexivity.
  replace (10 <? 0)%Z with false by reflexivity.
  replace (-10 <? 0)%Z with true by reflexivity.
  rewrite !Z.min_l, !Z.max_l by lia.
  replace (Z.to_nat (10 - 0)) with (String.length first) by (rewrite Hfirst; reflexivity).
  replace (Z.to_nat 0) with 0%nat by reflexivity.
  replace (Z.to_nat (Z.of_nat (10 + String.length middle + 10) + -10))
    with (String.length (first ++ middle))
    by (rewrite string_length_append; lia).
  replace (Z.to_nat (Z.of_nat (10 + String.length middle + 10) -
                     (Z.of_nat (10 + String.length middle + 10) + -10)))
    with (String.length last_) by lia.
  rewrite Hname, Hrest_eq.
  rewrite substring_prefix.
  replace (first ++ middle ++ last_) with ((first ++ middle) ++ last_).
  - now rewrite substring_suffix.
  - clear. induction first as [ | c f IH]; cbn; [reflexivity | now rewrite IH].
Qed.

(** A name longer than 20 characters is shown as its first ten characters,
    three dots and its last ten characters. *)
Theorem displayName_keeps_both_ends (name : string) :
  (20 < String.length name)%nat ->
  exists first middle last_,
    name = first ++ middle ++ last_ /\
    String.length first = 10%nat /\
    String.length last_ = 10%nat /\
    UserInfo.displayName name = first ++ "..." ++ last_.
Proof. exact (displayName_long name). Qed.

(** The shown name is the name itself up to 20 characters and has exactly
    23 characters beyond that: a name of 21 or 22 characters is shown longer
    than it is. *)
Theorem displayName_length (name : string) :
  String.length (UserInfo.displayName name) =
  if (String.length name <=? 20)%nat then String.length name else 23%nat.
Proof.
  destruct (Nat.leb_spec (String.length name) 20) as [Hle | Hlong].
  - unfold UserInfo.displayName.
    destruct (Nat.leb_spec (String.length name) 20); [reflexivity | lia].
  - destruct (displayName_long name Hlong)
      as (first & middle & last_ & _ & Hfirst & Hlast & ->).
    rewrite !string_length_append, Hfirst, Hlast. reflexivity.
Qed.

(** * What [cancel] does on every input *)

(** Without a request, without a connected account (or with an empty one),
    or without a chain id (or with chain id 0), [cancel] throws its own error
    before calling anything. *)
Theorem cancel_refuses_when_page_not_ready
    (sdk : Collaborators) (request : option IParsedRequest)
    (account : option string) (chainId : option Z) :
  request = None \/ Js.truthy_opt account = false \/
  chainId = None \/ chainId = Some 0%Z ->
  run (RequestPage.cancel sdk request account chainId) =
  (Throw (Js.mkError "cannot cancel because page is not ready" None), initial).
Proof.
  intros [-> | [Haccount | [-> | ->]]]; unfold run, RequestPage.cancel.
  - reflexivity.
  - destruct request, account as [a | ], chainId; try reflexivity.
    cbn in Haccount. now rewrite Haccount.
  - destruct request, account; reflexivity.
  - destruct request, account as [a | ]; try reflexivity.
    now rewrite andb_false_r.
Qed.

(** When [cancelRequest] succeeds, [cancel] refreshes the request: the
    trace is the cancellation followed by [update], and [cancel] ends the way
    [update] ends. *)
Theorem cancel_refreshes_after_success
    (sdk : Collaborators) (request : IParsedRequest) (account : string)
    (chainId : Z) :
  Js.truthy account = true ->
  chainId <> 0%Z ->
  cancelRequest sdk (requestId request) account chainId = inr tt ->
  run (RequestPage.cancel sdk (Some request) (Some account) (Some chainId)) =
  (match update sdk with inl e => Throw e | inr u => Normal u end,
   {| txs := [];
      trace := [Call_cancelRequest (requestId request) account chainId;
                Call_update] |}).
Proof.
  intros Haccount Hchain Hdone.
  unfold run, RequestPage.cancel, Js.truthy_num.
  apply Z.eqb_neq in Hchain. rewrite Haccount, Hchain. cbn [andb negb].
  unfold bind, try_catch, call_fallible, emit, bind. cbn [initial txs trace app].
  rewrite Hdone. unfold ret. cbn. destruct (update sdk); reflexivity.
Qed.

(** [cancel] makes at most two external calls: [cancelRequest] with the
    page's own request id, account and chain id, and then possibly [update].
    [update] is never called first, and no transaction is built. *)
Theorem cancel_calls_in_order
    (sdk : Collaborators) (request : option IParsedRequest)
    (account : option string) (chainId : option Z) :
  let out := run (RequestPage.cancel sdk request account chainId) in
  txs (snd out) = [] /\
  (trace (snd out) = [] \/
   exists r a c,
     request = Some r /\ account = Some a /\ chainId = Some c /\
     (trace (snd out) = [Call_cancelRequest (requestId r) a c] \/
      trace (snd out) = [Call_cancelRequest (requestId r) a c; Call_update])).
Proof.
  unfold run, RequestPage.cancel.
  destruct request as [r | ], account as [a | ], chainId as [c | ];
    try (cbn; auto; fail).
  destruct (Js.truthy a && Js.truthy_num c); [ | cbn; auto].
  unfold bind, try_catch, call_fallible, emit, bind, ret, throw.
  cbn [initial txs trace app].
  split.
  - destruct (cancelRequest sdk (requestId r) a c) as [e | []];
      [destruct (isCancelError sdk e) | ]; cbn; destruct (update sdk);
      reflexivity.
  - right. exists r, a, c. repeat split.
    destruct (cancelRequest sdk (requestId r) a c) as [e | []];
      [destruct (isCancelError sdk e) | ]; cbn; destruct (update sdk); auto.
Qed.

(** * The pay link *)

Lemma payingAfter_external (paying0 : bool) (t : list Event) :
  PayLink.payingAfter paying0 (map PayLink.External t) = paying0.
Proof.
  unfold PayLink.payingAfter. revert paying0.
  induction t as [ | ev t IH]; intros paying0; cbn; [reflexivity | apply IH].
Qed.

(** Cutting a list of external steps followed by one more step right before
    one of its external steps leaves external steps only on the left. *)
Lemma external_prefix (t : list Event) (tail before after : list PayLink.Step)
    (ev : Event) :
  (forall ev', tail <> PayLink.External ev' :: after) ->
  (length tail <= 1)%nat ->
  (map PayLink.External t ++ tail)%list =
  (before ++ PayLink.External ev :: after)%list ->
  exists t', before = map PayLink.External t'.
Proof.
  intros Htail Hlen. revert before.
  induction t as [ | ev0 t IH]; intros before Heq; cbn in Heq.
  - destruct before as [ | st before].
    + exists []. reflexivity.
    + destruct tail as [ | st' [ | ? ?]]; cbn in Hlen; try lia.
      * discriminate Heq.
      * injection Heq as _ Heq. destruct before; discriminate Heq.
  - destruct before as [ | st before].
    + exists []. reflexivity.
    + injection Heq as <- Heq. destruct (IH before Heq) as [t' ->].
      exists (ev0 :: t'). reflexivity.
Qed.

(** Whatever [pay] does (runs to its end, returns early or throws), the
    handler of the pay link ends with [setPaying(false)], and it fails
    exactly when [pay] throws, with the same error. *)
Theorem clickPay_always_resets_paying (pay : M unit) (paying0 : bool) :
  PayLink.payingAfter paying0 (snd (PayLink.clickPay pay)) = false /\
  (forall e, fst (PayLink.clickPay pay) = Throw e <-> fst (run pay) = Throw e).
Proof.
  unfold PayLink.clickPay. destruct (run pay) as [completion final].
  cbn [fst snd]. split.
  - unfold PayLink.payingAfter. cbn [app fold_left].
    rewrite fold_left_app. reflexivity.
  - intros e. destruct completion; split; intros H;
      try discriminate H; exact H.
Qed.

(** Every external call of [pay] falls between [setPaying(true)] and
    [setPaying(false)]: at each of them the value last given to [setPaying]
    is [true]. *)
Theorem clickPay_paying_during_calls
    (pay : M unit) (paying0 : bool) (before after : list PayLink.Step)
    (ev : Event) :
  snd (PayLink.clickPay pay) =
  (before ++ PayLink.External ev :: after)%list ->
  PayLink.payingAfter paying0 before = true.
Proof.
  unfold PayLink.clickPay. destruct (run pay) as [completion final].
  cbn [fst snd app]. intros Heq.
  destruct before as [ | st before]; [discriminate Heq | ].
  injection Heq as <- Heq.
  apply external_prefix in Heq.
  - destruct Heq as [t' ->]. unfold PayLink.payingAfter. cbn [fold_left].
    apply (payingAfter_external true).
  - intros ev' H. discriminate H.
  - cbn. lia.
Qed.

(** * Labels of [Body] and the view of [Actions] *)

Lemma lower_char_idempotent (c : ascii) :
  Js.lower_char (Js.lower_char c) = Js.lower_char c.
Proof. destruct c as [[] [] [] [] [] [] [] []]; reflexivity. Qed.

Lemma toLowerCase_idempotent (s : string) :
  Js.toLowerCase (Js.toLowerCase s) = Js.toLowerCase s.
Proof.
  induction s as [ | c s IH]; cbn; [reflexivity | ].
  now rewrite lower_char_idempotent, IH.
Qed.

(** A one-sided comparison succeeds only on a non-empty left operand whose
    lower-casing is the right operand as stored. *)
Lemma matches_lowercased_true (x y : option string) :
  Body.matches_lowercased x y = true ->
  exists a, x = Some a /\ Js.truthy a = true /\ y = Some (Js.toLowerCase a).
Proof.
  unfold Body.matches_lowercased.
  destruct x as [a | ]; cbn; [ | discriminate].
  intros H. apply andb_true_iff in H. destruct H as [Ha Heq].
  destruct y as [b | ]; [ | discriminate].
  apply String.eqb_eq in Heq. subst b. eauto.
Qed.

Lemma actionsAccount_modulo_case (account account' : option string) :
  same_modulo_case_opt account account' ->
  same_modulo_case_opt (Page.actionsAccount account)
                       (Page.actionsAccount account').
Proof.
  intros H. unfold Page.actionsAccount.
  rewrite (same_modulo_case_opt_truthy _ _ H).
  destruct (Js.truthy_opt account'); [exact H | reflexivity].
Qed.

Lemma payerIsSafeOrAccount_modulo_case (r : IParsedRequest)
    (account account' safe safe' : option string) :
  same_modulo_case_opt account account' ->
  same_modulo_case_opt safe safe' ->
  Actions.payerIsSafeOrAccount r account safe =
  Actions.payerIsSafeOrAccount r account' safe'.
Proof.
  unfold same_modulo_case_opt, Actions.payerIsSafeOrAccount.
  now intros -> ->.
Qed.

(** [Body] marks the payee with "(You)" or "(Safe)" only when the request
    stores a non-empty payee in lower case: a payee stored with an upper-case
    letter is never marked, whoever is connected. *)
Theorem payee_label_needs_lowercase_payee
    (account smartContractAddress : option string) (r : IParsedRequest) :
  BodyView.payeeLabel account smartContractAddress (Some r) <>
  BodyView.NoLabel ->
  lowercased (payee r) /\ payee r <> "".
Proof.
  unfold BodyView.payeeLabel, Body.isAccountPayee, Body.isSmartContractPayee,
    Body.payee_of. cbn [option_map].
  assert (Hcore : forall x, Body.matches_lowercased x (Some (payee r)) = true ->
                            lowercased (payee r) /\ payee r <> "").
  { intros x Hx. apply matches_lowercased_true in Hx.
    destruct Hx as (a & _ & Ha & Heq). injection Heq as Heq.
    unfold lowercased. rewrite Heq. split.
    - apply toLowerCase_idempotent.
    - intros Hempty. rewrite <- truthy_toLowerCase, Hempty in Ha.
      discriminate Ha. }
  destruct (Body.matches_lowercased account (Some (payee r))) eqn:Hacc;
    [intros _; exact (Hcore _ Hacc) | ].
  destruct (Body.matches_lowercased smartContractAddress (Some (payee r)))
    eqn:Hsafe; [intros _; exact (Hcore _ Hsafe) | ].
  intros H. now contradiction H.
Qed.

(** When the connected account is the Safe's own address (up to letter
    case), neither the payee nor the payer is ever marked "(Safe)": "(You)"
    comes first. *)
Theorem you_label_comes_before_safe
    (account smartContractAddress : option string)
    (request : option IParsedRequest) :
  same_modulo_case_opt account smartContractAddress ->
  BodyView.payeeLabel account smartContractAddress request <> BodyView.Safe /\
  BodyView.payerLabel account smartContractAddress request <> BodyView.Safe.
Proof.
  intros Hsame.
  unfold BodyView.payeeLabel, BodyView.payerLabel, Body.isAccountPayee,
    Body.isSmartContractPayee, Body.isAccountPayer, Body.isSmartContractPayer.
  rewrite !(matches_lowercased_left _ _ _ Hsame).
  split.
  - destruct (Body.matches_lowercased smartContractAddress
                (Body.payee_of request)); discriminate.
  - destruct (Body.matches_lowercased smartContractAddress
                (Body.payer_of request)); discriminate.
Qed.

(** For a request whose payee is stored in lower case and whose payment
    address is the payee up to letter case (so that the payment-address line
    is hidden), the Safe is the payee exactly when it is the payment
    address. *)
Theorem safe_tests_agree_when_payment_line_hidden
    (smartContractAddress : option string) (r : IParsedRequest) :
  lowercased (payee r) ->
  Body.showsPaymentAddress (Some r) = false ->
  Body.isSmartContractPayee smartContractAddress (Some r) =
  Body.isPaymentAddressSmartContract smartContractAddress (Some r).
Proof.
  unfold lowercased, Body.showsPaymentAddress. intros Hlower Hhidden.
  apply negb_false_iff, String.eqb_eq in Hhidden.
  unfold Body.isSmartContractPayee, Body.isPaymentAddressSmartContract,
    Body.matches_lowercased, Body.payee_of. cbn [option_map].
  now rewrite <- Hhidden, Hlower.
Qed.

(** The whole page, labels and actions alike, is the same for two readings
    of the connected account and of the Safe address that differ in letter
    case only. *)
Theorem render_modulo_case
    (loading : bool) (request : option IParsedRequest)
    (account account' : option string) (safeInfo safeInfo' : option SafeInfo) :
  same_modulo_case_opt account account' ->
  same_modulo_case_opt (Page.smartContractAddress safeInfo)
                       (Page.smartContractAddress safeInfo') ->
  Page.render loading request account safeInfo =
  Page.render loading request account' safeInfo'.
Proof.
  intros Hacc Hsafe. unfold Page.render.
  destruct (negb loading && match request with None => true | Some _ => false end);
    [reflexivity | ].
  unfold BodyView.payeeLabel, BodyView.payerLabel, Body.isAccountPayee,
    Body.isSmartContractPayee, Body.isAccountPayer, Body.isSmartContractPayer.
  rewrite !(matches_lowercased_left _ _ _ Hacc).
  rewrite !(matches_lowercased_left _ _ _ Hsafe).
  f_equal. unfold Actions.view. destruct request as [r | ]; [ | reflexivity].
  rewrite (payerIsSafeOrAccount_modulo_case r _ _ _ _
             (actionsAccount_modulo_case _ _ Hacc) Hsafe).
  reflexivity.
Qed.

(** Whenever [Body] marks the payer of a request with "(You)" or "(Safe)",
    [Actions] finds the payer too. *)
Lemma payer_label_payerIsSafeOrAccount
    (r : IParsedRequest) (account : option string)
    (safeInfo : option SafeInfo) :
  BodyView.payerLabel account (Page.smartContractAddress safeInfo) (Some r) <>
  BodyView.NoLabel ->
  Actions.payerIsSafeOrAccount r (Page.actionsAccount account)
    (Page.smartContractAddress safeInfo) = true.
Proof.
  intros Hlabel.
  unfold BodyView.payerLabel, Body.isAccountPayer, Body.isSmartContractPayer,
    Body.payer_of in Hlabel.
  unfold Actions.payerIsSafeOrAccount.
  destruct (Body.matches_lowercased account (payer r)) eqn:Hacc.
  - apply matches_lowercased_true in Hacc.
    destruct Hacc as (a & -> & Ha & ->).
    unfold Page.actionsAccount. cbn. rewrite Ha. cbn.
    rewrite truthy_toLowerCase, Ha, toLowerCase_idempotent, String.eqb_refl.
    now rewrite orb_true_r.
  - destruct (Body.matches_lowercased (Page.smartContractAddress safeInfo)
                (payer r)) eqn:Hsafe; [ | now contradiction Hlabel].
    apply matches_lowercased_true in Hsafe.
    destruct Hsafe as (a & -> & Ha & ->). cbn.
    now rewrite truthy_toLowerCase, Ha, toLowerCase_idempotent, String.eqb_refl.
Qed.

(** Whenever [Body] marks the payer of a request that is neither canceled
    nor paid with "(You)" or "(Safe)", [Actions] renders its payer branch:
    the "Pay now" link wired to [clickPay], replaced by the text "Paying..."
    while [paying] is true, and below it the share link.  No cancel link is
    rendered. *)
Theorem payer_label_implies_pay_now
    (paying copied : bool) (r : IParsedRequest) (account : option string)
    (safeInfo : option SafeInfo) :
  BodyView.payerLabel account (Page.smartContractAddress safeInfo) (Some r) <>
  BodyView.NoLabel ->
  status r <> "canceled" -> status r <> "paid" -> status r <> "overpaid" ->
  ActionsRender.render paying copied (Some r) (Page.actionsAccount account)
    (Page.smartContractAddress safeInfo) =
  [ if paying then ActionsRender.Text "Paying..."
    else ActionsRender.LinkTo true ActionsRender.ClickPay "Pay now";
    ActionsRender.LinkTo false ActionsRender.Share
      (if copied then "Copied!" else "Share this request") ].
Proof.
  intros Hlabel Hc Hp Ho. unfold ActionsRender.render.
  apply String.eqb_neq in Hc, Hp, Ho. rewrite Hc, Hp, Ho. cbn [orb].
  now rewrite (payer_label_payerIsSafeOrAccount r account safeInfo Hlabel).
Qed.

(** * The further theorems at concrete inputs *)

Lemma pay_submitted_batch_shape_witness :
  let request := Sample.requestOf "ETH" in
  let batch := [payEthStep Sample.sdk request "0xETHPROXY"] in
  (recognized "ETH" = false /\ batch = []) \/
  ("ETH" = "ERC20" /\
   hasSufficientFunds Sample.sdk (raw request) "0xsafe" = inr true /\
   exists proxy,
     erc20ProxyArtifact_getAddress Sample.sdk (Some "mainnet") = inr proxy /\
     ((hasErc20Approval Sample.sdk (raw request) "0xsafe" = inr true /\
       batch = [payErc20Step Sample.sdk request proxy]) \/
      (hasErc20Approval Sample.sdk (raw request) "0xsafe" = inr false /\
       batch = [approveStep Sample.sdk request;
                payErc20Step Sample.sdk request proxy]))) \/
  ("ETH" = "ETH" /\
   hasSufficientFunds Sample.sdk (raw request) "0xsafe" = inr true /\
   exists proxy,
     ethereumProxyArtifact_getAddress Sample.sdk (Some "mainnet") = inr proxy /\
     batch = [payEthStep Sample.sdk request proxy]).
Proof.
  apply (pay_submitted_batch_shape Sample.sdk (Sample.requestOf "ETH")
           (Sample.safe "0xsafe") (Some appsSdkInstance)).
  left. reflexivity.
Defined.

Lemma pay_oracle_rejection_propagates_witness :
  fst (run (RequestPage.pay Faulty.oraclesDown (Some (Sample.requestOf "ETH"))
              (Some (Sample.safe "0xsafe")) (Some appsSdkInstance))) =
  Throw Sample.networkDown.
Proof.
  apply (pay_oracle_rejection_propagates Faulty.oraclesDown
           (Sample.requestOf "ETH") (Sample.safe "0xsafe")
           (Some appsSdkInstance) Sample.networkDown).
  left. split; [right | ]; reflexivity.
Defined.

Lemma pay_erc20_registry_failure_submits_nothing_witness :
  txs (snd (run (RequestPage.pay Sample.sdk
                   (Some (Faulty.requestOnUnknownNetwork "ERC20"))
                   (Some (Sample.safe "0xsafe")) (Some appsSdkInstance)))) =
  [approveStep Sample.sdk (Faulty.requestOnUnknownNetwork "ERC20")] /\
  submitted (trace (snd (run (RequestPage.pay Sample.sdk
                   (Some (Faulty.requestOnUnknownNetwork "ERC20"))
                   (Some (Sample.safe "0xsafe")) (Some appsSdkInstance))))) =
  [].
Proof.
  pose proof (pay_erc20_registry_failure_submits_nothing Sample.sdk
                (Faulty.requestOnUnknownNetwork "ERC20") (Sample.safe "0xsafe")
                (Some appsSdkInstance) Sample.noDeployment false
                eq_refl eq_refl eq_refl eq_refl) as H.
  split; apply H.
Defined.

Lemma pay_eth_registry_failure_submits_nothing_witness :
  run (RequestPage.pay Sample.sdk
         (Some (Faulty.requestOnUnknownNetwork "ETH"))
         (Some (Sample.safe "0xsafe")) (Some appsSdkInstance)) =
  (Throw Sample.noDeployment,
   {| txs := [];
      trace := [Call_hasSufficientFunds
                  (raw (Faulty.requestOnUnknownNetwork "ETH")) "0xsafe";
                Call_ethereumProxy_getAddress (Some "testnet")] |}).
Proof.
  apply (pay_eth_registry_failure_submits_nothing Sample.sdk
           (Faulty.requestOnUnknownNetwork "ETH") (Sample.safe "0xsafe")
           (Some appsSdkInstance) Sample.noDeployment); reflexivity.
Defined.

Lemma pay_builds_only_after_funds_confirmed_witness :
  hasSufficientFunds Sample.sdk (raw (Sample.requestOf "ERC20")) "0xsafe" =
  inr true /\
  ("ERC20" = "ERC20" \/ "ERC20" = "ETH").
Proof.
  apply (pay_builds_only_after_funds_confirmed Sample.sdk
           (Sample.requestOf "ERC20") (Sample.safe "0xsafe")
           (Some appsSdkInstance)
           (Call_encodeApproveErc20 (raw (Sample.requestOf "ERC20")))).
  - right. right. left. reflexivity.
  - reflexivity.
Defined.

Lemma pay_oracle_queries_are_about_the_safe_witness :
  let asked := Call_hasErc20Approval (raw (Sample.requestOf "ERC20")) "0xsafe" in
  (asked = Call_hasSufficientFunds (raw (Sample.requestOf "ERC20")) "0xsafe" /\
   ("ERC20" = "ERC20" \/ "ERC20" = "ETH")) \/
  (asked = Call_hasErc20Approval (raw (Sample.requestOf "ERC20")) "0xsafe" /\
   "ERC20" = "ERC20" /\
   hasSufficientFunds Sample.sdk (raw (Sample.requestOf "ERC20")) "0xsafe" =
   inr true).
Proof.
  apply (pay_oracle_queries_are_about_the_safe Sample.sdk
           (Sample.requestOf "ERC20") (Sample.safe "0xsafe")
           (Some appsSdkInstance)).
  - right. left. reflexivity.
  - reflexivity.
Defined.

Lemma pay_alert_causes_witness :
  fst (run (RequestPage.pay Sample.sdk (Some (Sample.requestOf "ISO4217"))
              (Some (Sample.safe "0xsafe")) (Some appsSdkInstance))) =
  Return.
Proof.
  apply (pay_alert_causes Sample.sdk (Sample.requestOf "ISO4217")
           (Sample.safe "0xsafe") (Some appsSdkInstance) "not implemented").
  left. reflexivity.
Defined.

Lemma displayName_keeps_both_ends_witness :
  exists first middle last_,
    "0x1234567890abcdef1234567890ABCDEF12345678" = first ++ middle ++ last_ /\
    String.length first = 10%nat /\
    String.length last_ = 10%nat /\
    UserInfo.displayName "0x1234567890abcdef1234567890ABCDEF12345678" =
    first ++ "..." ++ last_.
Proof.
  apply (displayName_keeps_both_ends
           "0x1234567890abcdef1234567890ABCDEF12345678").
  cbn. lia.
Defined.

Lemma cancel_refuses_when_page_not_ready_witness :
  run (RequestPage.cancel Sample.sdk (Some (Sample.requestOf "ETH"))
         (Some "") (Some 1%Z)) =
  (Throw (Js.mkError "cannot cancel because page is not ready" None), initial).
Proof.
  apply (cancel_refuses_when_page_not_ready Sample.sdk
           (Some (Sample.requestOf "ETH")) (Some "") (Some 1%Z)).
  right. left. reflexivity.
Defined.

Lemma cancel_refreshes_after_success_witness :
  run (RequestPage.cancel Sample.sdk (Some (Sample.requestOf "ETH"))
         (Some "0xpayee") (Some 1%Z)) =
  (Normal tt,
   {| txs := [];
      trace := [Call_cancelRequest "01abc" "0xpayee" 1; Call_update] |}).
Proof.
  apply (cancel_refreshes_after_success Sample.sdk (Sample.requestOf "ETH")
           "0xpayee" 1%Z).
  - reflexivity.
  - lia.
  - reflexivity.
Defined.

Lemma clickPay_paying_during_calls_witness :
  PayLink.payingAfter false [PayLink.SetPaying true] = true.
Proof.
  apply (clickPay_paying_during_calls
           (RequestPage.pay Sample.sdk (Some (Sample.requestOf "BTC"))
              (Some (Sample.safe "0xsafe")) (Some appsSdkInstance))
           false [PayLink.SetPaying true] [PayLink.SetPaying false]
           (Alert "not implemented")).
  reflexivity.
Defined.

Lemma payee_label_needs_lowercase_payee_witness :
  lowercased "0xpayee" /\ "0xpayee" <> "".
Proof.
  apply (payee_label_needs_lowercase_payee (Some "0xPAYEE") None
           (Sample.requestOf "ETH")).
  cbn. discriminate.
Defined.

Lemma you_label_comes_before_safe_witness :
  BodyView.payerLabel (Some "0xSafe") (Some "0xSAFE")
    (Some (Sample.requestOf "ETH")) <> BodyView.Safe.
Proof.
  apply (you_label_comes_before_safe (Some "0xSafe") (Some "0xSAFE")
           (Some (Sample.requestOf "ETH"))).
  reflexivity.
Defined.

Lemma safe_tests_agree_when_payment_line_hidden_witness :
  Body.isSmartContractPayee (Some "0xPAYEE") (Some (Sample.requestOf "ETH")) =
  Body.isPaymentAddressSmartContract (Some "0xPAYEE")
    (Some (Sample.requestOf "ETH")).
Proof.
  apply (safe_tests_agree_when_payment_line_hidden (Some "0xPAYEE")
           (Sample.requestOf "ETH")); reflexivity.
Defined.

Lemma render_modulo_case_witness :
  Page.render false (Some (Sample.requestOf "ETH")) (Some "0xPayee")
    (Some (Sample.safe "0xSAFE")) =
  Page.render false (Some (Sample.requestOf "ETH")) (Some "0xPAYEE")
    (Some (Sample.safe "0xsafe")).
Proof.
  apply (render_modulo_case false (Some (Sample.requestOf "ETH"))
           (Some "0xPayee") (Some "0xPAYEE")
           (Some (Sample.safe "0xSAFE")) (Some (Sample.safe "0xsafe")));
    reflexivity.
Defined.

Lemma payer_label_implies_pay_now_witness :
  ActionsRender.render false false (Some (Sample.requestOf "ETH")) None
    (Some "0xSAFE") =
  [ ActionsRender.LinkTo true ActionsRender.ClickPay "Pay now";
    ActionsRender.LinkTo false ActionsRender.Share "Share this request" ].
Proof.
  apply (payer_label_implies_pay_now false false (Sample.requestOf "ETH") None
           (Some (Sample.safe "0xSAFE"))); cbn; discriminate.
Defined.
